(** * TODO_Website: a shallow embedding of [main.py]

    The Flask application declares two tables, [Users] and [Tasks], behind
    SQLAlchemy, and serves seven routes.  The tables are modelled as lists of
    rows in insertion order, the SQLAlchemy session as a unit of work (a list
    of pending changes that [db.session.commit()] flushes), and every view
    function as a computation in a small state-and-exception monad, written
    statement by statement after the Python source.

    The module declares [ForeignKey("users.id")] while the table of [User] is
    named ["Users"].  SQLAlchemy looks a table up by its exact name, finds no
    foreign key between the two tables for the two [relationship]s, and fails
    to configure the mappers at the first use of [User] or [Task].  The views
    are therefore written over the table name the foreign key carries: the
    module as it is declared is the instance [owner_id_ForeignKey], and the
    properties that hold whatever that name is hold of the module in
    particular.

    What the source takes from libraries and from the engine stays a
    parameter: werkzeug's [generate_password_hash] / [check_password_hash],
    and the row order of [ORDER BY owner_id].  The database is the default
    one, [sqlite:///todo.db]; a secret key is taken to be set and the
    templates to render. *)

From Stdlib Require Import ZArith List String Bool Lia.
Import ListNotations.
Open Scope string_scope.
Open Scope list_scope.
Open Scope Z_scope.

(** ** Data model (classes [User] and [Task]) *)

Record User := mkUser {
  User_id : Z;
  User_email : string;
  User_password : string;
  User_name : string
}.

Record Task := mkTask {
  Task_owner_id : Z;
  Task_id : Z;
  Task_name : string;
  Task_category : string
}.

(** The database: one list of rows per table, oldest row first. *)
Record Store := mkStore {
  Users : list User;
  Tasks : list Task
}.

Definition empty_store : Store := mkStore [] [].

(** [User.__tablename__] and [Task.__tablename__] *)
Definition User_tablename : string := "Users".
Definition Task_tablename : string := "Tasks".

(** The table named by [db.ForeignKey("users.id")] on [Task.owner_id]. *)
Definition owner_id_ForeignKey : string := "users".

(** ** Requests, responses, exceptions *)

Inductive Method := GET | POST.

(** The URL rules. [route_update i] and [route_delete i] stand for the paths
    [/update/i] and [/delete/i], whatever integer [i] is written there. *)
Inductive Route :=
| route_home
| route_add
| route_update (task_id : Z)
| route_delete (task_id : Z)
| route_register
| route_login
| route_logout.

(** [cookie] is the [_user_id] entry of the signed session cookie the client
    sends; [salt] is the randomness [generate_password_hash] draws; [rowids]
    are the candidates SQLite draws for a key once the largest key is taken. *)
Record Request := mkRequest {
  method : Method;
  route : Route;
  form : list (string * string);
  cookie : option Z;
  salt : string;
  rowids : list Z
}.

Inductive Response :=
| redirect (endpoint : string)
| render_template (template : string) (tasks : option (list Task)).

(** The exceptions a request can end in. No view catches any.
    [NoForeignKeysError] is what the mapper configuration raises; a worker
    that has met it once raises it again wrapped in an [InvalidRequestError],
    which the model does not tell apart. *)
Inductive Exn :=
| NoForeignKeysError
| NotFound
| MethodNotAllowed
| BadRequestKeyError (key : string)
| AttributeError (obj attr : string)
| UnmappedInstanceError
| OverflowError
| IntegrityError (constraint : string)
| OperationalError (message : string).

Inductive Result (A : Type) :=
| Ok (a : A)
| Raise (e : Exn).
Arguments Ok {A} a.
Arguments Raise {A} e.

(** ** The unit of work of [db.session] *)

Inductive Pending :=
| InsertUser (email password name : string)
| InsertTask (name : string) (owner_id : Z)
| UpdateCategory (task_id : Z) (category : string)
| DeleteTask (task_id : Z).

(** What a request can read and write while it is served. *)
Record World := mkWorld {
  db : Store;
  pending : list Pending;
  session_user : option Z;
  flashes : list (string * string)
}.

Definition M (A : Type) : Type := World -> Result A * World.

Definition ret {A} (a : A) : M A := fun w => (Ok a, w).

Definition bind {A B} (m : M A) (k : A -> M B) : M B :=
  fun w => match m w with
           | (Ok a, w') => k a w'
           | (Raise e, w') => (Raise e, w')
           end.

Definition raise {A} (e : Exn) : M A := fun w => (Raise e, w).

Declare Scope view_scope.
Delimit Scope view_scope with view.
Notation "x <- m ;; k" := (bind m (fun x => k))
  (at level 100, m at next level, right associativity) : view_scope.
Notation "m ;; k" := (bind m (fun _ => k))
  (at level 100, right associativity) : view_scope.
Open Scope view_scope.

(** ** Reading the tables *)

(** The row of [User.query.filter_by(email=e).first()] *)
Definition User_filter_by_email_first (e : string) (s : Store) : option User :=
  find (fun u => String.eqb (User_email u) e) (Users s).

(** The row of [User.query.get(i)] *)
Definition User_get (i : Z) (s : Store) : option User :=
  find (fun u => Z.eqb (User_id u) i) (Users s).

(** The row of [Task.query.filter_by(id=i).first()] and [Task.query.get(i)] *)
Definition Task_get (i : Z) (s : Store) : option Task :=
  find (fun t => Z.eqb (Task_id t) i) (Tasks s).

(** An integer SQLite can bind to a statement: 64 bits, signed. *)
Definition sqlite_integer (i : Z) : bool :=
  Z.leb (- 2 ^ 63) i && Z.ltb i (2 ^ 63).

(** ** Flushing a pending change *)

Definition max_rowid : Z := 2 ^ 63 - 1.

(** The key SQLite gives a new row: 1 in an empty table, else one more than
    the largest key; when the largest key is the largest integer, the first
    of the random candidates that is positive and not in use, and none when
    every candidate is taken. *)
Definition new_rowid (candidates ids : list Z) : option Z :=
  match ids with
  | [] => Some 1
  | i :: ids' =>
      let m := fold_right Z.max i ids' in
      if Z.ltb m max_rowid
      then Some (m + 1)
      else find (fun c => Z.leb 1 c && Z.leb c max_rowid
                          && negb (existsb (Z.eqb c) ids))
                candidates
  end.

Definition set_category (i : Z) (c : string) (t : Task) : Task :=
  if Z.eqb (Task_id t) i
  then mkTask (Task_owner_id t) (Task_id t) (Task_name t) c
  else t.

(** One statement of the flush. An INSERT takes its key first and returns
    it. The [unique=True] columns [Users.email] and [Tasks.name] reject a
    value that is already in the table; [category] takes its column default.
    Column lengths and the foreign key are not checked, as under SQLite's
    defaults. *)
Definition flush1 (candidates : list Z) (p : Pending) (s : Store)
  : Result (Store * list Z) :=
  match p with
  | InsertUser e pw n =>
      match new_rowid candidates (map User_id (Users s)) with
      | None => Raise (OperationalError "database or disk is full")
      | Some i =>
          if existsb (fun u => String.eqb (User_email u) e) (Users s)
          then Raise (IntegrityError "Users.email")
          else Ok (mkStore (Users s ++ [mkUser i e pw n]) (Tasks s), [i])
      end
  | InsertTask n o =>
      match new_rowid candidates (map Task_id (Tasks s)) with
      | None => Raise (OperationalError "database or disk is full")
      | Some i =>
          if existsb (fun t => String.eqb (Task_name t) n) (Tasks s)
          then Raise (IntegrityError "Tasks.name")
          else Ok (mkStore (Users s) (Tasks s ++ [mkTask o i n "To Do"]), [i])
      end
  | UpdateCategory i c =>
      Ok (mkStore (Users s) (map (set_category i c) (Tasks s)), [])
  | DeleteTask i =>
      Ok (mkStore (Users s)
                  (filter (fun t => negb (Z.eqb (Task_id t) i)) (Tasks s)), [])
  end.

Fixpoint flush (candidates : list Z) (ps : list Pending) (s : Store)
  : Result (Store * list Z) :=
  match ps with
  | [] => Ok (s, [])
  | p :: ps' =>
      match flush1 candidates p s with
      | Raise e => Raise e
      | Ok (s1, k1) =>
          match flush candidates ps' s1 with
          | Raise e => Raise e
          | Ok (s2, k2) => Ok (s2, k1 ++ k2)
          end
      end
  end.

(** [db.session.add(obj)], [obj.category = c], [db.session.delete(obj)]:
    each records a change; nothing reaches the tables before the commit. *)
Definition db_session_record (p : Pending) : M unit :=
  fun w => (Ok tt, mkWorld (db w) (pending w ++ [p]) (session_user w) (flashes w)).

(** [db.session.commit()]: flushes the pending changes in one transaction.
    When a statement fails the transaction is rolled back and the exception
    propagates. The result lists the keys written back into the new objects. *)
Definition db_session_commit (req : Request) : M (list Z) :=
  fun w => match flush (rowids req) (pending w) (db w) with
           | Ok (s', keys) =>
               (Ok keys, mkWorld s' [] (session_user w) (flashes w))
           | Raise e =>
               (Raise e, mkWorld (db w) [] (session_user w) (flashes w))
           end.

(** [db.session.delete(obj)] where [obj] is the result of a lookup: [None]
    is not a mapped instance. *)
Definition db_session_delete (o : option Task) : M unit :=
  match o with
  | None => raise UnmappedInstanceError
  | Some t => db_session_record (DeleteTask (Task_id t))
  end.

(** ** Flask primitives *)

Definition read {A} (q : Store -> A) : M A := fun w => (Ok (q (db w)), w).

(** [request.form[key]] *)
Definition request_form (req : Request) (key : string) : M string :=
  match find (fun kv => String.eqb (fst kv) key) (form req) with
  | Some kv => ret (snd kv)
  | None => raise (BadRequestKeyError key)
  end.

Definition flash (message category : string) : M unit :=
  fun w => (Ok tt, mkWorld (db w) (pending w) (session_user w)
                           (flashes w ++ [(message, category)])).

Definition login_user (user_id : Z) : M unit :=
  fun w => (Ok tt, mkWorld (db w) (pending w) (Some user_id) (flashes w)).

Definition clear_session_user : M unit :=
  fun w => (Ok tt, mkWorld (db w) (pending w) None (flashes w)).

(** ** The view functions *)

Section Views.

(** The table the foreign key of [Task.owner_id] names. *)
Variable ForeignKey_table : string.

(** werkzeug.security: [generate_password_hash password salt] with
    [method='pbkdf2:sha256'], and [check_password_hash pwhash password]. *)
Variable generate_password_hash : string -> string -> string.
Variable check_password_hash : string -> string -> bool.

(** The rows the engine returns for [SELECT ... FROM Tasks ORDER BY owner_id],
    given the table. *)
Variable ORDER_BY_owner_id : list Task -> list Task.

(** Mapper configuration, run at the first use of a mapped class: the two
    [relationship]s between [User] and [Task] need a foreign key from the
    task table to the table of [User]. *)
Definition configure_mappers : M unit :=
  if String.eqb ForeignKey_table User_tablename
  then ret tt
  else raise NoForeignKeysError.

(** [User.query] and [Task.query]: building the query configures the
    mappers. *)
Definition User_query : M unit := configure_mappers.
Definition Task_query : M unit := configure_mappers.

(** [Task(...)] and [User(...)]: so does building an instance. *)
Definition Task_new (name : string) (owner_id : Z) : M Pending :=
  configure_mappers ;; ret (InsertTask name owner_id).

Definition User_new (email password name : string) : M Pending :=
  configure_mappers ;; ret (InsertUser email password name).

(** A SELECT by primary key: the key is bound to the statement. *)
Definition select_by_id {A} (q : Z -> Store -> option A) (i : Z)
  : M (option A) :=
  if sqlite_integer i then read (q i) else raise OverflowError.

(** [load_user(user_id)]: [User.query.get(int(user_id))] *)
Definition load_user (user_id : Z) : M (option User) :=
  User_query ;;
  select_by_id User_get user_id.

(** [current_user]: the row [load_user] gives for the session's user id, or
    the anonymous user when the session names none or the row is gone. *)
Definition current_user : M (option User) :=
  fun w => match session_user w with
           | Some i => load_user i w
           | None => (Ok None, w)
           end.

(** [current_user.id]: the anonymous user has no such attribute. *)
Definition current_user_id : M Z :=
  u <- current_user ;;
  match u with
  | Some u => ret (User_id u)
  | None => raise (AttributeError "AnonymousUserMixin" "id")
  end.

(** Flask-Login's [logout_user()]: it resolves the current user, then drops
    the user id from the session. *)
Definition logout_user : M unit :=
  current_user ;;
  clear_session_user.

(** Flask's [render_template]: Flask-Login's context processor resolves the
    current user for every template. *)
Definition render (template : string) (tasks : option (list Task))
  : M Response :=
  current_user ;;
  ret (render_template template tasks).

(** [@app.route('/')] *)
Definition home (req : Request) : M Response :=
  Task_query ;;
  all_tasks <- read (fun s => ORDER_BY_owner_id (Tasks s)) ;;
  db_session_commit req ;;
  render "index.html" (Some all_tasks).

(** [@app.route("/add", methods=["GET", "POST"])] *)
Definition add_task (req : Request) : M Response :=
  match method req with
  | POST =>
      task_name <- request_form req "task" ;;
      owner_id <- current_user_id ;;
      new_task <- Task_new task_name owner_id ;;
      db_session_record new_task ;;
      db_session_commit req ;;
      ret tt
  | GET => ret tt
  end ;;
  ret (redirect "home").

(** [@app.route("/update/<int:task_id>", methods=["GET", "POST"])] *)
Definition update_task (req : Request) (task_id : Z) : M Response :=
  Task_query ;;
  task_to_update <- select_by_id Task_get task_id ;;
  match task_to_update with
  | None => raise (AttributeError "NoneType" "category")
  | Some t =>
      if String.eqb (Task_category t) "To Do"
      then (db_session_record (UpdateCategory (Task_id t) "DOING") ;;
            db_session_commit req)
      else (db_session_record (UpdateCategory (Task_id t) "DONE") ;;
            db_session_commit req)
  end ;;
  ret (redirect "home").

(** [@app.route("/delete/<int:task_id>")] *)
Definition delete_task (req : Request) (task_id : Z) : M Response :=
  Task_query ;;
  task_to_delete <- select_by_id Task_get task_id ;;
  db_session_delete task_to_delete ;;
  db_session_commit req ;;
  ret (redirect "home").

(** [@app.route("/register", methods=["GET", "POST"])]. In the condition,
    [User.query] is evaluated before the form is read. *)
Definition register (req : Request) : M Response :=
  match method req with
  | POST =>
      User_query ;;
      email <- request_form req "register-email" ;;
      found <- read (User_filter_by_email_first email) ;;
      match found with
      | Some _ =>
          flash "You've already signed up with that email, log in instead!"
                "error" ;;
          render "register.html" None
      | None =>
          password <- request_form req "register-password" ;;
          let hash_and_salted_password :=
            generate_password_hash password (salt req) in
          email <- request_form req "register-email" ;;
          name <- request_form req "register-name" ;;
          new_user <- User_new email hash_and_salted_password name ;;
          db_session_record new_user ;;
          keys <- db_session_commit req ;;
          (* [new_user.id] is the key the flush wrote back *)
          login_user (hd 0 keys) ;;
          ret (redirect "home")
      end
  | GET => render "register.html" None
  end.

(** [@app.route('/login', methods=["GET", "POST"])] *)
Definition login (req : Request) : M Response :=
  match method req with
  | POST =>
      email <- request_form req "login-email" ;;
      password <- request_form req "login-password" ;;
      User_query ;;
      user <- read (User_filter_by_email_first email) ;;
      match user with
      | None =>
          flash "That email does not exist, please try again." "error" ;;
          ret (redirect "login")
      | Some user =>
          if negb (check_password_hash (User_password user) password)
          then (flash "Password incorrect, please try again!" "error" ;;
                ret (redirect "login"))
          else (login_user (User_id user) ;;
                ret (redirect "home"))
      end
  | GET => render "login.html" None
  end.

(** [@app.route('/logout')] *)
Definition logout : M Response :=
  logout_user ;;
  ret (redirect "home").

(** URL routing. The converter [<int:task_id>] matches digits only, so a
    path with a negative id matches no rule; a rule without [methods]
    answers GET only. *)
Definition dispatch (req : Request) : M Response :=
  match route req with
  | route_home =>
      match method req with
      | GET => home req
      | POST => raise MethodNotAllowed
      end
  | route_add => add_task req
  | route_update task_id =>
      if Z.ltb task_id 0 then raise NotFound else update_task req task_id
  | route_delete task_id =>
      if Z.ltb task_id 0 then raise NotFound
      else match method req with
           | GET => delete_task req task_id
           | POST => raise MethodNotAllowed
           end
  | route_register => register req
  | route_login => login req
  | route_logout =>
      match method req with
      | GET => logout
      | POST => raise MethodNotAllowed
      end
  end.

(** One request against the database: a fresh unit of work, the session
    the cookie carries, no flashed message yet. *)
Definition serve (req : Request) (s : Store) : Result Response * World :=
  dispatch req (mkWorld s [] (cookie req) []).

(** The tables once the request is over; changes still pending are dropped
    with the request's session. *)
Definition store_after (req : Request) (s : Store) : Store :=
  db (snd (serve req s)).

Fixpoint run (reqs : list Request) (s : Store) : Store :=
  match reqs with
  | [] => s
  | req :: reqs' => run reqs' (store_after req s)
  end.

End Views.

(** ** Start-up configuration and printing *)

Fixpoint str_skip (n : nat) (s : string) : string :=
  match n, s with
  | O, _ => s
  | S _, EmptyString => EmptyString
  | S n', String _ s' => str_skip n' s'
  end.

(** [s.replace(old, new, 1)]: the leftmost occurrence of [old] is replaced. *)
Fixpoint str_replace_first (old new s : string) : string :=
  if String.prefix old s
  then String.append new (str_skip (String.length old) s)
  else match s with
       | EmptyString => EmptyString
       | String c s' => String c (str_replace_first old new s')
       end.

(** [app.config['SQLALCHEMY_DATABASE_URI']] as the module sets it, given
    [os.environ.get('DATABASE_URL')]. *)
Definition SQLALCHEMY_DATABASE_URI (DATABASE_URL : option string) : string :=
  match DATABASE_URL with
  | None => "sqlite:///todo.db"
  | Some uri =>
      if String.prefix "postgres://" uri
      then str_replace_first "postgres://" "postgresql://" uri
      else uri
  end.

(** [User.__repr__] and [Task.__repr__] *)
Definition User_repr (u : User) : string :=
  String.append "<User " (String.append (User_name u) ">").

Definition Task_repr (t : Task) : string :=
  String.append "<Task " (String.append (Task_name t) ">").

(** ** Instances of the parameters *)

(** A password scheme that stores the password next to the salt: enough to
    run the views on concrete requests. *)
Definition toy_generate_password_hash (password salt : string) : string :=
  String.append password (String.append "$" salt).

Definition toy_check_password_hash (pwhash password : string) : bool :=
  String.prefix (String.append password "$") pwhash.

(** An engine for [ORDER BY owner_id]: an insertion sort over the table that
    puts a row behind the rows of the same owner, so that the rows of one
    owner come out in table order. *)
Fixpoint insert_after (t : Task) (l : list Task) : list Task :=
  match l with
  | [] => [t]
  | x :: l' =>
      if Z.ltb (Task_owner_id t) (Task_owner_id x)
      then t :: l
      else x :: insert_after t l'
  end.

Definition engine_oldest_first (rows : list Task) : list Task :=
  fold_left (fun acc t => insert_after t acc) rows [].

(** ** Vocabulary of the properties *)

(** The category the two branches of [update_task] write, as a function of
    the category read. *)
Definition next_category (c : string) : string :=
  if String.eqb c "To Do" then "DOING" else "DONE".

(** Position of a category in the board: "To Do", then "DOING", then the
    last column. *)
Definition category_rank (c : string) : Z :=
  if String.eqb c "To Do" then 0
  else if String.eqb c "DOING" then 1
  else 2.

(** The three columns of the board. *)
Definition valid_category (c : string) : Prop :=
  c = "To Do" \/ c = "DOING" \/ c = "DONE".

(** What the declared keys and [unique=True] columns keep true. *)
Definition wf_store (s : Store) : Prop :=
  NoDup (map User_id (Users s)) /\
  NoDup (map User_email (Users s)) /\
  NoDup (map Task_id (Tasks s)) /\
  NoDup (map Task_name (Tasks s)).

(** Every task's [owner_id] is the key of a user row. *)
Definition owners_exist (s : Store) : Prop :=
  forall t, In t (Tasks s) ->
            exists u, In u (Users s) /\ User_id u = Task_owner_id t.

(** The effect of one request on the tables, with the route, the method and
    the rows it depends on. *)
Inductive Change (req : Request) (s : Store) : Store -> Prop :=
| change_none : Change req s s
| change_register e pw n k :
    route req = route_register ->
    method req = POST ->
    User_filter_by_email_first e s = None ->
    new_rowid (rowids req) (map User_id (Users s)) = Some k ->
    Change req s (mkStore (Users s ++ [mkUser k e pw n]) (Tasks s))
| change_add n i u k :
    route req = route_add ->
    method req = POST ->
    cookie req = Some i ->
    User_get i s = Some u ->
    existsb (fun t => String.eqb (Task_name t) n) (Tasks s) = false ->
    new_rowid (rowids req) (map Task_id (Tasks s)) = Some k ->
    Change req s
      (mkStore (Users s) (Tasks s ++ [mkTask (User_id u) k n "To Do"]))
| change_update i t :
    route req = route_update i ->
    Task_get i s = Some t ->
    Change req s
      (mkStore
         (Users s)
         (map (set_category i (next_category (Task_category t))) (Tasks s)))
| change_delete i t :
    route req = route_delete i ->
    method req = GET ->
    Task_get i s = Some t ->
    Change req s
      (mkStore
         (Users s)
         (filter (fun t => negb (Z.eqb (Task_id t) i)) (Tasks s))).

Definition is_delete_of (i : Z) (req : Request) : bool :=
  match route req with
  | route_delete j => Z.eqb j i
  | _ => false
  end.

Definition login_form (email password : string) : list (string * string) :=
  [("login-email", email); ("login-password", password)].

Definition register_form (email password name : string)
  : list (string * string) :=
  [("register-email", email); ("register-password", password);
   ("register-name", name)].

Definition add_form (task : string) : list (string * string) :=
  [("task", task)].

(** ** A small board to run the views on *)

Definition alice : User :=
  mkUser 1 "alice@example.org"
         (toy_generate_password_hash "wonderland" "NaCl") "Alice".

Definition bob : User :=
  mkUser 2 "bob@example.org"
         (toy_generate_password_hash "builder" "KCl") "Bob".

Definition milk : Task := mkTask 2 1 "Buy milk" "To Do".
Definition dog : Task := mkTask 1 2 "Walk dog" "DOING".
Definition rent : Task := mkTask 1 3 "Pay rent" "DONE".

Definition board : Store := mkStore [alice; bob] [milk; dog; rent].

(** The module as declared, with the instances above plugged in. *)
Definition toy_serve : Request -> Store -> Result Response * World :=
  serve owner_id_ForeignKey toy_generate_password_hash
        toy_check_password_hash engine_oldest_first.

Definition toy_store_after : Request -> Store -> Store :=
  store_after owner_id_ForeignKey toy_generate_password_hash
              toy_check_password_hash engine_oldest_first.

Definition toy_run : list Request -> Store -> Store :=
  run owner_id_ForeignKey toy_generate_password_hash
      toy_check_password_hash engine_oldest_first.

(** The same with the foreign key on the table of [User]. *)
Definition mended_serve : Request -> Store -> Result Response * World :=
  serve User_tablename toy_generate_password_hash
        toy_check_password_hash engine_oldest_first.

Definition mended_run : list Request -> Store -> Store :=
  run User_tablename toy_generate_password_hash
      toy_check_password_hash engine_oldest_first.

(** * Properties *)

(** ** Running the views *)

Ltac unfold_views :=
  unfold store_after, serve, dispatch, home, add_task, update_task,
    delete_task, register, login, logout, render, logout_user,
    current_user_id, current_user, load_user, select_by_id, User_query,
    Task_query, Task_new, User_new, configure_mappers,
    db_session_delete, db_session_commit, db_session_record, request_form,
    flash, login_user, clear_session_user, read, bind, ret, raise in *;
  simpl in *.

Ltac split_views :=
  repeat match goal with
    | |- context [match ?x with _ => _ end] =>
        lazymatch x with
        | context [match _ with _ => _ end] => fail
        | _ => destruct x eqn:?; simpl
        end
    end.

Lemma Task_get_id i s t : Task_get i s = Some t -> Task_id t = i.
Proof.
  unfold Task_get. intros H. apply find_some in H as [_ H].
  now apply Z.eqb_eq.
Qed.

(** ** The views on the board *)

Example home_on_board :
  toy_serve (mkRequest GET route_home [] None "" []) board
  = (Raise NoForeignKeysError, mkWorld board [] None []).
Proof. reflexivity. Qed.

Example home_on_board_mended :
  fst (mended_serve (mkRequest GET route_home [] None "" []) board)
  = Ok (render_template "index.html" (Some [dog; rent; milk])).
Proof. reflexivity. Qed.

Example home_rejects_post :
  fst (toy_serve (mkRequest POST route_home [] None "" []) board)
  = Raise MethodNotAllowed.
Proof. reflexivity. Qed.

Example add_without_login :
  toy_serve (mkRequest POST route_add (add_form "Water plants") None "" [])
            board
  = (Raise (AttributeError "AnonymousUserMixin" "id"),
     mkWorld board [] None []).
Proof. reflexivity. Qed.

Example add_with_login :
  toy_serve (mkRequest POST route_add (add_form "Water plants") (Some 1)
                       "" [])
            board
  = (Raise NoForeignKeysError, mkWorld board [] (Some 1) []).
Proof. reflexivity. Qed.

Example add_without_field :
  fst (toy_serve (mkRequest POST route_add [] (Some 1) "" []) board)
  = Raise (BadRequestKeyError "task").
Proof. reflexivity. Qed.

Example update_negative_id :
  fst (toy_serve (mkRequest GET (route_update (-1)) [] None "" []) board)
  = Raise NotFound.
Proof. reflexivity. Qed.

Example update_large_id_mended :
  fst (mended_serve (mkRequest GET (route_update (2 ^ 63)) [] None "" [])
                    board)
  = Raise OverflowError.
Proof. reflexivity. Qed.

Example three_updates_of_milk_mended :
  map Task_category
      (Tasks (mended_run
                (repeat (mkRequest GET (route_update 1) [] None "" []) 3)
                board))
  = ["DONE"; "DOING"; "DONE"].
Proof. reflexivity. Qed.

Example logout_with_cookie :
  toy_serve (mkRequest GET route_logout [] (Some 1) "" []) board
  = (Raise NoForeignKeysError, mkWorld board [] (Some 1) []).
Proof. reflexivity. Qed.

Example new_rowid_at_the_largest_key :
  new_rowid [2; 7] [1; max_rowid] = Some 2 /\
  new_rowid [] [-5; -2] = Some (-1).
Proof. split; reflexivity. Qed.

(** With the foreign key on the table of [User] the views get past the
    mapper configuration and do what their bodies say. *)

Example register_then_login_mended :
  let reg := mkRequest POST route_register
               (register_form "carol@example.org" "s3cret" "Carol") None
               "MgCl" [] in
  let log := mkRequest POST route_login
               (login_form "carol@example.org" "s3cret") None "" [] in
  fst (mended_serve reg board) = Ok (redirect "home") /\
  session_user (snd (mended_serve log (mended_run [reg] board))) = Some 3.
Proof. split; reflexivity. Qed.

Example login_wrong_password_mended :
  mended_serve (mkRequest POST route_login
                  (login_form "alice@example.org" "looking-glass") None
                  "" [])
               board
  = (Ok (redirect "login"),
     mkWorld board [] None
       [("Password incorrect, please try again!", "error")]).
Proof. reflexivity. Qed.

Example add_same_name_twice_mended :
  let add1 := mkRequest POST route_add (add_form "Water plants") (Some 1)
                "" [] in
  let add2 := mkRequest POST route_add (add_form "Water plants") (Some 2)
                "" [] in
  fst (mended_serve add1 board) = Ok (redirect "home") /\
  fst (mended_serve add2 (mended_run [add1] board))
  = Raise (IntegrityError "Tasks.name").
Proof. split; reflexivity. Qed.

Example register_known_email_mended :
  mended_serve (mkRequest POST route_register
                  (register_form "bob@example.org" "hammer" "Robert") None
                  "KBr" [])
               board
  = (Ok (render_template "register.html" None),
     mkWorld board [] None
       [("You've already signed up with that email, log in instead!",
         "error")]).
Proof. reflexivity. Qed.

Example delete_missing_mended :
  mended_serve (mkRequest GET (route_delete 7) [] None "" []) board
  = (Raise UnmappedInstanceError, mkWorld board [] None []).
Proof. reflexivity. Qed.

Example update_missing_mended :
  mended_serve (mkRequest POST (route_update 7) [] None "" []) board
  = (Raise (AttributeError "NoneType" "category"), mkWorld board [] None []).
Proof. reflexivity. Qed.

(** ** What one request can do to the tables *)

Lemma first_None_existsb e s :
  User_filter_by_email_first e s = None ->
  existsb (fun u => String.eqb (User_email u) e) (Users s) = false.
Proof.
  intros H. destruct (existsb _ (Users s)) eqn:X; [|reflexivity].
  apply existsb_exists in X as [u [Hin Hu]].
  unfold User_filter_by_email_first in H.
  eapply find_none in H; [|exact Hin]. simpl in H. congruence.
Qed.

Lemma store_after_change fk gen chk ord req s :
  Change req s (store_after fk gen chk ord req s).
Proof.
  destruct req as [m r f c sl rnd].
  destruct r, m; unfold_views; split_views;
    try match goal with
      | H : Task_get _ _ = Some _ |- _ => rewrite (Task_get_id _ _ _ H)
      end;
    try solve [ apply change_none
              | eapply change_register; simpl; eauto
              | eapply change_add; simpl; eauto
              | eapply change_delete; simpl; eauto ].
  all: match goal with
       | H : Task_get ?i ?s0 = Some ?t,
         Hc : String.eqb (Task_category ?t) "To Do" = _ |- Change ?r _ _ =>
           pose proof (change_update r s0 i t eq_refl H) as X;
           unfold next_category in X; rewrite Hc in X; exact X
       end.
Qed.

(** The module as declared never gets past the mapper configuration: no
    request changes a row. *)
Lemma declared_store_after gen chk ord req s :
  store_after owner_id_ForeignKey gen chk ord req s = s.
Proof.
  destruct req as [m r f c sl rnd].
  destruct r, m; unfold_views; split_views; reflexivity.
Qed.

Lemma declared_run gen chk ord reqs s :
  run owner_id_ForeignKey gen chk ord reqs s = s.
Proof.
  induction reqs as [|req reqs IH]; simpl; [reflexivity|].
  now rewrite declared_store_after.
Qed.

Section RunInvariant.

Variable fk : string.
Variable gen : string -> string -> string.
Variable chk : string -> string -> bool.
Variable ord : list Task -> list Task.
Variable P : Store -> Prop.
Hypothesis P_change : forall req s s', P s -> Change req s s' -> P s'.

Lemma run_invariant reqs : forall s, P s -> P (run fk gen chk ord reqs s).
Proof.
  induction reqs as [|req reqs IH]; intros s H; simpl; [exact H|].
  apply IH. eapply P_change; [exact H | apply store_after_change].
Qed.

End RunInvariant.

(** ** Keys and unique columns *)

Lemma le_fold_max x i l : In x (i :: l) -> x <= fold_right Z.max i l.
Proof.
  revert x. induction l as [|y l IH]; intros x; simpl.
  - intros [E|[]]. lia.
  - intros [E|[E|H]].
    + specialize (IH i (or_introl eq_refl)). lia.
    + lia.
    + specialize (IH x (or_intror H)). lia.
Qed.

Lemma new_rowid_fresh candidates ids k :
  new_rowid candidates ids = Some k -> ~ In k ids.
Proof.
  unfold new_rowid. destruct ids as [|i ids]; [intros _ []|].
  destruct (fold_right Z.max i ids <? max_rowid) eqn:E.
  - intros [= <-] H. apply le_fold_max in H. lia.
  - intros H Hin. apply find_some in H as [_ H].
    apply andb_true_iff in H as [_ H]. apply negb_true_iff in H.
    assert (X : existsb (Z.eqb k) (i :: ids) = true).
    { apply existsb_exists. exists k. split; [exact Hin | apply Z.eqb_refl]. }
    congruence.
Qed.

Lemma existsb_false_not_In {A} (f : A -> string) e l :
  existsb (fun x => String.eqb (f x) e) l = false -> ~ In e (map f l).
Proof.
  induction l as [|x l IH]; simpl; [tauto|].
  intros H. apply orb_false_iff in H as [Hx Hl].
  intros [E|E]; [|now apply IH].
  subst e. now rewrite String.eqb_refl in Hx.
Qed.

Lemma NoDup_map_snoc {A B} (f : A -> B) l x :
  NoDup (map f l) -> ~ In (f x) (map f l) -> NoDup (map f (l ++ [x])).
Proof.
  intros Hl Hx. rewrite map_app. simpl. apply NoDup_app; auto.
  - constructor; [simpl; tauto | constructor].
  - intros a Ha [<-|[]]. now apply Hx.
Qed.

Lemma NoDup_map_filter {A B} (f : A -> B) (p : A -> bool) l :
  NoDup (map f l) -> NoDup (map f (filter p l)).
Proof.
  induction l as [|x l IH]; simpl; [auto|].
  intros H. inversion H as [|? ? Hx Hl]; subst.
  destruct (p x); simpl; [|auto].
  constructor; [|auto].
  intros Hin. apply Hx. apply in_map_iff in Hin as [y [Hy Hin]].
  apply filter_In in Hin as [Hin _]. rewrite <- Hy. now apply in_map.
Qed.

Lemma map_id_set_category i c l :
  map Task_id (map (set_category i c) l) = map Task_id l.
Proof.
  rewrite map_map. apply map_ext. intros t. unfold set_category.
  now destruct (Task_id t =? i).
Qed.

Lemma map_name_set_category i c l :
  map Task_name (map (set_category i c) l) = map Task_name l.
Proof.
  rewrite map_map. apply map_ext. intros t. unfold set_category.
  now destruct (Task_id t =? i).
Qed.

Lemma Change_wf req s s' : wf_store s -> Change req s s' -> wf_store s'.
Proof.
  intros (Hui & Hue & Hti & Htn) C. unfold wf_store.
  destruct C as [|e pw n k _ _ He Hk|n i u k _ _ _ _ Hn Hk|i t _ Ht|i t _ _ _];
    simpl.
  - auto.
  - repeat split; auto.
    + apply NoDup_map_snoc; auto. simpl.
      now apply new_rowid_fresh in Hk.
    + apply NoDup_map_snoc; auto. simpl.
      apply (existsb_false_not_In User_email).
      now apply first_None_existsb.
  - repeat split; auto.
    + apply NoDup_map_snoc; auto. simpl.
      now apply new_rowid_fresh in Hk.
    + apply NoDup_map_snoc; auto. simpl.
      now apply (existsb_false_not_In Task_name).
  - rewrite map_id_set_category, map_name_set_category. auto.
  - repeat split; auto using NoDup_map_filter.
Qed.

Lemma wf_empty_store : wf_store empty_store.
Proof. repeat split; constructor. Qed.

Lemma wf_board : wf_store board.
Proof.
  unfold wf_store, board. simpl.
  repeat split;
    repeat (constructor; [simpl; intuition discriminate|]); constructor.
Qed.

(** ** Looking a task up after a change *)

Lemma find_id_set_category i j c l :
  find (fun t => Task_id t =? i) (map (set_category j c) l) =
  option_map (set_category j c) (find (fun t => Task_id t =? i) l).
Proof.
  induction l as [|x l IH]; simpl; [reflexivity|].
  assert (E : Task_id (set_category j c x) = Task_id x).
  { unfold set_category. now destruct (Task_id x =? j). }
  rewrite E. destruct (Task_id x =? i); [reflexivity | exact IH].
Qed.

Lemma find_id_snoc i l x t :
  find (fun t => Task_id t =? i) l = Some t ->
  find (fun t => Task_id t =? i) (l ++ [x]) = Some t.
Proof.
  induction l as [|y l IH]; simpl; [discriminate|].
  destruct (Task_id y =? i); auto.
Qed.

Lemma find_id_filter_other i j l :
  i <> j ->
  find (fun t => Task_id t =? i)
       (filter (fun t => negb (Task_id t =? j)) l) =
  find (fun t => Task_id t =? i) l.
Proof.
  intros N. induction l as [|x l IH]; simpl; [reflexivity|].
  destruct (Task_id x =? j) eqn:Ej; simpl.
  - apply Z.eqb_eq in Ej.
    destruct (Task_id x =? i) eqn:Ei; [|exact IH].
    apply Z.eqb_eq in Ei. congruence.
  - destruct (Task_id x =? i); [reflexivity | exact IH].
Qed.

Lemma find_id_filter_same i l :
  find (fun t => Task_id t =? i)
       (filter (fun t => negb (Task_id t =? i)) l) = None.
Proof.
  induction l as [|x l IH]; simpl; [reflexivity|].
  destruct (Task_id x =? i) eqn:E; simpl; [exact IH|].
  now rewrite E.
Qed.

Lemma set_category_other i c t :
  Task_id t <> i -> set_category i c t = t.
Proof.
  intros N. unfold set_category.
  destruct (Task_id t =? i) eqn:E; [|reflexivity].
  apply Z.eqb_eq in E. contradiction.
Qed.

(** ** The module as declared, route by route *)

Section Declared.

Variable gen : string -> string -> string.
Variable chk : string -> string -> bool.
Variable ord : list Task -> list Task.

Lemma declared_home f c sl rnd s :
  serve owner_id_ForeignKey gen chk ord
    (mkRequest GET route_home f c sl rnd) s =
  (Raise NoForeignKeysError, mkWorld s [] c []).
Proof. reflexivity. Qed.

Lemma declared_update m f c sl rnd i s :
  serve owner_id_ForeignKey gen chk ord
    (mkRequest m (route_update i) f c sl rnd) s =
  (Raise (if i <? 0 then NotFound else NoForeignKeysError),
   mkWorld s [] c []).
Proof. unfold_views. destruct (i <? 0), m; reflexivity. Qed.

Lemma declared_delete f c sl rnd i s :
  serve owner_id_ForeignKey gen chk ord
    (mkRequest GET (route_delete i) f c sl rnd) s =
  (Raise (if i <? 0 then NotFound else NoForeignKeysError),
   mkWorld s [] c []).
Proof. unfold_views. destruct (i <? 0); reflexivity. Qed.

Lemma declared_add n i sl rnd s :
  serve owner_id_ForeignKey gen chk ord
    (mkRequest POST route_add (add_form n) (Some i) sl rnd) s =
  (Raise NoForeignKeysError, mkWorld s [] (Some i) []).
Proof. reflexivity. Qed.

Lemma declared_register f c sl rnd s :
  serve owner_id_ForeignKey gen chk ord
    (mkRequest POST route_register f c sl rnd) s =
  (Raise NoForeignKeysError, mkWorld s [] c []).
Proof. reflexivity. Qed.

Lemma declared_login e pw c sl rnd s :
  serve owner_id_ForeignKey gen chk ord
    (mkRequest POST route_login (login_form e pw) c sl rnd) s =
  (Raise NoForeignKeysError, mkWorld s [] c []).
Proof. reflexivity. Qed.

End Declared.

(** ** The specified behaviour on the module as declared *)

(** C1. The update view of the module as declared advances nothing: for a
    task that exists, whatever its category, the request ends in
    [NoForeignKeysError], raised when [Task.query] configures the mappers,
    before the two branches are reached; the task keeps its category, so a
    task in "To Do" is not moved to "DOING". *)
Theorem update_task_raises_before_branches :
  forall gen chk ord m f c sl rnd i s t,
    0 <= i ->
    Task_get i s = Some t ->
    let req := mkRequest m (route_update i) f c sl rnd in
    serve owner_id_ForeignKey gen chk ord req s =
      (Raise NoForeignKeysError, mkWorld s [] c []) /\
    Task_get i (store_after owner_id_ForeignKey gen chk ord req s) = Some t.
Proof.
  intros gen chk ord m f c sl rnd i s t Hi Ht req. unfold req.
  unfold store_after. rewrite declared_update.
  apply Z.ltb_ge in Hi. rewrite Hi. simpl. auto.
Qed.

Lemma update_task_raises_before_branches_witness :
  toy_serve (mkRequest POST (route_update 1) [] None "" []) board =
    (Raise NoForeignKeysError, mkWorld board [] None []) /\
  Task_get 1
    (toy_store_after (mkRequest POST (route_update 1) [] None "" []) board)
  = Some (mkTask 2 1 "Buy milk" "To Do").
Proof.
  refine (update_task_raises_before_branches
            toy_generate_password_hash toy_check_password_hash
            engine_oldest_first POST [] None "" [] 1 board milk _ eq_refl).
  lia.
Defined.

(** C2. On the module as declared, registering and then logging in with the
    same credentials succeeds at neither step: the register request ends in
    [NoForeignKeysError] at [User.query], stores no user and leaves the
    session as it was, and so does the login request that follows. *)
Theorem register_then_login_raise :
  forall gen chk ord email password name c1 sl1 rnd1 c2 sl2 rnd2 s,
    let reg := mkRequest POST route_register
                 (register_form email password name) c1 sl1 rnd1 in
    let s1 := store_after owner_id_ForeignKey gen chk ord reg s in
    let log := mkRequest POST route_login
                 (login_form email password) c2 sl2 rnd2 in
    serve owner_id_ForeignKey gen chk ord reg s =
      (Raise NoForeignKeysError, mkWorld s [] c1 []) /\
    Users s1 = Users s /\
    serve owner_id_ForeignKey gen chk ord log s1 =
      (Raise NoForeignKeysError, mkWorld s [] c2 []).
Proof.
  intros gen chk ord email password name c1 sl1 rnd1 c2 sl2 rnd2 s
         reg s1 log.
  assert (E : s1 = s) by apply declared_store_after.
  rewrite E. repeat split.
Qed.

(** C3. On the module as declared the login view produces neither notice:
    for every email, registered or not, and every password, the request ends
    in [NoForeignKeysError] at [User.query], before either [flash]; no
    message is queued and no redirect to the login page is returned. *)
Theorem login_raises_before_flash :
  forall gen chk ord email password c sl rnd s,
    let log := mkRequest POST route_login
                 (login_form email password) c sl rnd in
    serve owner_id_ForeignKey gen chk ord log s =
      (Raise NoForeignKeysError, mkWorld s [] c []) /\
    flashes (snd (serve owner_id_ForeignKey gen chk ord log s)) = [].
Proof.
  intros gen chk ord email password c sl rnd s log.
  unfold log. rewrite declared_login. split; reflexivity.
Qed.

(** C4. On the module as declared no add request of a logged-in session
    reaches the unique column of the task name: the first request ends in
    [NoForeignKeysError], raised when [load_user] builds [User.query], and
    stores nothing, and the second request with the same name ends the same
    way, not in an integrity error. *)
Theorem add_task_twice_raises :
  forall gen chk ord name i1 sl1 rnd1 i2 sl2 rnd2 s,
    let add1 := mkRequest POST route_add (add_form name) (Some i1) sl1 rnd1 in
    let add2 := mkRequest POST route_add (add_form name) (Some i2) sl2 rnd2 in
    let s1 := store_after owner_id_ForeignKey gen chk ord add1 s in
    serve owner_id_ForeignKey gen chk ord add1 s =
      (Raise NoForeignKeysError, mkWorld s [] (Some i1) []) /\
    Tasks s1 = Tasks s /\
    serve owner_id_ForeignKey gen chk ord add2 s1 =
      (Raise NoForeignKeysError, mkWorld s [] (Some i2) []).
Proof.
  intros gen chk ord name i1 sl1 rnd1 i2 sl2 rnd2 s add1 add2 s1.
  assert (E : s1 = s) by apply declared_store_after.
  rewrite E. repeat split.
Qed.

(** C5. On the module as declared, registering with an email that a user
    already has shows no notice: the request ends in [NoForeignKeysError] at
    [User.query], nothing is flashed and no form is rendered. The user table
    is unchanged. *)
Theorem register_known_email_raises :
  forall gen chk ord email password name c sl rnd s u,
    In u (Users s) -> User_email u = email ->
    let reg := mkRequest POST route_register
                 (register_form email password name) c sl rnd in
    serve owner_id_ForeignKey gen chk ord reg s =
      (Raise NoForeignKeysError, mkWorld s [] c []) /\
    store_after owner_id_ForeignKey gen chk ord reg s = s.
Proof.
  intros gen chk ord email password name c sl rnd s u _ _ reg.
  split; [reflexivity | apply declared_store_after].
Qed.

Lemma register_known_email_raises_witness :
  toy_serve (mkRequest POST route_register
               (register_form "bob@example.org" "hammer" "Robert") None
               "KBr" [])
            board =
  (Raise NoForeignKeysError, mkWorld board [] None []).
Proof.
  refine (proj1 (register_known_email_raises
            toy_generate_password_hash toy_check_password_hash
            engine_oldest_first "bob@example.org" "hammer" "Robert" None
            "KBr" [] board bob _ _));
    [simpl; tauto | reflexivity].
Defined.

(** C6. On the module as declared the home page lists nothing: a GET
    request to [/] ends in [NoForeignKeysError] at [Task.query], whatever
    the tasks and their owners are, and no template is rendered. *)
Theorem home_raises_before_listing :
  forall gen chk ord f c sl rnd s,
    serve owner_id_ForeignKey gen chk ord
      (mkRequest GET route_home f c sl rnd) s =
    (Raise NoForeignKeysError, mkWorld s [] c []).
Proof.
  intros. apply declared_home.
Qed.

(** C7. On the module as declared, deleting a task id that no row has ends
    in [NoForeignKeysError], raised at [Task.query] as it is for an id that
    exists, and only a negative id, which matches no URL rule, ends in
    [NotFound]. The tables are unchanged. *)
Theorem delete_task_missing_raises :
  forall gen chk ord f c sl rnd i s,
    ~ In i (map Task_id (Tasks s)) ->
    let req := mkRequest GET (route_delete i) f c sl rnd in
    fst (serve owner_id_ForeignKey gen chk ord req s) =
      Raise (if i <? 0 then NotFound else NoForeignKeysError) /\
    store_after owner_id_ForeignKey gen chk ord req s = s.
Proof.
  intros gen chk ord f c sl rnd i s _ req. unfold req.
  split; [now rewrite declared_delete | apply declared_store_after].
Qed.

Lemma delete_task_missing_raises_witness :
  fst (toy_serve (mkRequest GET (route_delete 7) [] None "" []) board)
  = Raise NoForeignKeysError.
Proof.
  refine (proj1 (delete_task_missing_raises
            toy_generate_password_hash toy_check_password_hash
            engine_oldest_first [] None "" [] 7 board _)).
  simpl. lia.
Defined.

(** C8. On the module as declared, updating a task id that no row has ends
    in [NoForeignKeysError], raised at [Task.query] as it is for an id that
    exists, and only a negative id, which matches no URL rule, ends in
    [NotFound]. The tables, so every task's category, are unchanged. *)
Theorem update_task_missing_raises :
  forall gen chk ord m f c sl rnd i s,
    ~ In i (map Task_id (Tasks s)) ->
    let req := mkRequest m (route_update i) f c sl rnd in
    fst (serve owner_id_ForeignKey gen chk ord req s) =
      Raise (if i <? 0 then NotFound else NoForeignKeysError) /\
    store_after owner_id_ForeignKey gen chk ord req s = s.
Proof.
  intros gen chk ord m f c sl rnd i s _ req. unfold req.
  split; [now rewrite declared_update | apply declared_store_after].
Qed.

Lemma update_task_missing_raises_witness :
  fst (toy_serve (mkRequest POST (route_update 7) [] None "" []) board)
  = Raise NoForeignKeysError.
Proof.
  refine (proj1 (update_task_missing_raises
            toy_generate_password_hash toy_check_password_hash
            engine_oldest_first POST [] None "" [] 7 board _)).
  simpl. lia.
Defined.

(** ** Categories only move forward *)

Lemma category_rank_next c :
  category_rank c <= category_rank (next_category c).
Proof.
  unfold next_category, category_rank.
  destruct (String.eqb c "To Do"); simpl; [lia|].
  destruct (String.eqb c "DOING"); lia.
Qed.

Lemma category_rank_DOING c :
  1 <= category_rank c -> c <> "To Do".
Proof.
  unfold category_rank. intros H ->. simpl in H. lia.
Qed.

Lemma category_rank_DONE c :
  2 <= category_rank c -> c <> "DOING" /\ c <> "To Do".
Proof.
  unfold category_rank. intros H. split; intros ->; simpl in H; lia.
Qed.

(** Across one request of any kind, a task id that is in the table before
    and after has not lost rank. *)
Lemma Change_rank req s s' i t t' :
  Change req s s' ->
  Task_get i s = Some t ->
  Task_get i s' = Some t' ->
  category_rank (Task_category t) <= category_rank (Task_category t').
Proof.
  intros C Ht Ht'.
  destruct C as [|e pw n k _ _ _ _|n j u k _ _ _ _ _ _|j t0 _ Ht0|j t0 _ _ _];
    unfold Task_get in *; simpl in *.
  - assert (t' = t) by congruence. subst. lia.
  - assert (t' = t) by congruence. subst. lia.
  - rewrite (find_id_snoc _ _ _ _ Ht) in Ht'.
    assert (t' = t) by congruence. subst. lia.
  - rewrite find_id_set_category, Ht in Ht'. simpl in Ht'.
    injection Ht' as <-. unfold set_category.
    destruct (Task_id t =? j) eqn:E; simpl; [|lia].
    apply Z.eqb_eq in E.
    assert (Task_id t = i)
      by (apply find_some in Ht as [_ X]; now apply Z.eqb_eq).
    assert (Hj : j = i) by lia. rewrite Hj in Ht0.
    assert (t0 = t) by congruence. subst t0. apply category_rank_next.
  - destruct (Z.eq_dec i j) as [->|N].
    + now rewrite find_id_filter_same in Ht'.
    + rewrite find_id_filter_other in Ht' by exact N.
      assert (t' = t) by congruence. subst. lia.
Qed.

(** A request that is not the deletion of task [i] keeps the task, with its
    name and owner, and does not lower its category. *)
Lemma Change_keeps_task req s s' i t :
  Change req s s' ->
  is_delete_of i req = false ->
  Task_get i s = Some t ->
  exists t',
    Task_get i s' = Some t' /\
    Task_name t' = Task_name t /\
    Task_owner_id t' = Task_owner_id t /\
    category_rank (Task_category t) <= category_rank (Task_category t').
Proof.
  intros C Hd Ht.
  destruct C as [|e pw n k _ _ _ _|n j u k _ _ _ _ _ _|j t0 _ Ht0|j t0 Hr _ _].
  - exists t. repeat split; auto; lia.
  - exists t. repeat split; auto; lia.
  - exists t. repeat split; auto; [|lia].
    unfold Task_get in *. simpl. now apply find_id_snoc.
  - exists (set_category j (next_category (Task_category t0)) t).
    split.
    { unfold Task_get in *. simpl. now rewrite find_id_set_category, Ht. }
    unfold set_category. destruct (Task_id t =? j) eqn:E; simpl.
    + repeat split; auto.
      apply Z.eqb_eq in E. rewrite (Task_get_id _ _ _ Ht) in E. subst j.
      assert (t0 = t) by congruence. subst t0. apply category_rank_next.
    + repeat split; auto; lia.
  - exists t. repeat split; auto; [|lia].
    unfold is_delete_of in Hd. rewrite Hr in Hd.
    apply Z.eqb_neq in Hd.
    unfold Task_get in *. simpl. rewrite find_id_filter_other; auto.
Qed.

(** With the foreign key on the table of [User], a run that does not delete
    the task keeps it and does not lower its category; the key of a deleted
    last row is given to the next row, a new task in "To Do". *)
Lemma run_keeps_task fk gen chk ord i reqs :
  forall s t,
    Task_get i s = Some t ->
    forallb (fun r => negb (is_delete_of i r)) reqs = true ->
    exists t',
      Task_get i (run fk gen chk ord reqs s) = Some t' /\
      Task_name t' = Task_name t /\
      Task_owner_id t' = Task_owner_id t /\
      category_rank (Task_category t) <= category_rank (Task_category t').
Proof.
  induction reqs as [|req reqs IH]; intros s t Ht Hreqs.
  - exists t. simpl. repeat split; auto; lia.
  - simpl in Hreqs. apply andb_true_iff in Hreqs as [Hd Hreqs].
    apply negb_true_iff in Hd.
    destruct (Change_keeps_task req s _ i t
                (store_after_change fk gen chk ord req s) Hd Ht)
      as (t1 & H1 & N1 & O1 & R1).
    destruct (IH _ _ H1 Hreqs) as (t' & H' & N' & O' & R').
    exists t'. simpl. repeat split; [exact H' | congruence.. | lia].
Qed.

Example rowid_reused_after_delete :
  Task_get 3 board = Some rent /\
  Task_get 3
    (mended_run
       [mkRequest GET (route_delete 3) [] None "" [];
        mkRequest POST route_add (add_form "Water plants") (Some 2) "" []]
       board) = Some (mkTask 2 3 "Water plants" "To Do").
Proof. split; reflexivity. Qed.

(** C9. No request moves a task's category backward in the order
    "To Do" < "DOING" < "DONE". Across a single request of any kind, whatever
    table the foreign key names, a task that is in the table before and after
    has not lost rank. On the module as declared, after every sequence of
    requests the task is still in the table and has not lost rank: seen at
    "DOING" it is not at "To Do" later, seen at "DONE" it is at neither
    "DOING" nor "To Do" later. *)
Theorem category_never_moves_back :
  forall gen chk ord i s t,
    Task_get i s = Some t ->
    (forall fk req t',
        Task_get i (store_after fk gen chk ord req s) = Some t' ->
        category_rank (Task_category t) <= category_rank (Task_category t'))
    /\
    (forall reqs,
        exists t',
          Task_get i (run owner_id_ForeignKey gen chk ord reqs s) = Some t' /\
          category_rank (Task_category t) <= category_rank (Task_category t')
          /\
          (Task_category t = "DOING" -> Task_category t' <> "To Do") /\
          (Task_category t = "DONE" ->
           Task_category t' <> "DOING" /\ Task_category t' <> "To Do")).
Proof.
  intros gen chk ord i s t Ht. split.
  - intros fk req t' Ht'.
    eapply Change_rank; [apply (store_after_change fk gen chk ord req s) | | ];
      eassumption.
  - intros reqs. exists t. rewrite declared_run.
    split; [exact Ht|]. split; [lia|]. split.
    + intros E. rewrite E. discriminate.
    + intros E. rewrite E. split; discriminate.
Qed.

Lemma category_never_moves_back_witness :
  exists t',
    Task_get 2
      (toy_run [mkRequest POST (route_update 2) [] None "" [];
                mkRequest GET (route_delete 2) [] None "" [];
                mkRequest POST route_add (add_form "Walk dog") (Some 2) "" []]
               board) = Some t' /\
    Task_category t' <> "To Do".
Proof.
  destruct (proj2 (category_never_moves_back
                     toy_generate_password_hash toy_check_password_hash
                     engine_oldest_first 2 board dog eq_refl)
              [mkRequest POST (route_update 2) [] None "" [];
               mkRequest GET (route_delete 2) [] None "" [];
               mkRequest POST route_add (add_form "Walk dog") (Some 2) "" []])
    as (t' & H & _ & D & _).
  exists t'. split; [exact H | apply D; reflexivity].
Defined.

(** C10. A GET request to [/] leaves the database as it was, whatever table
    the foreign key names: [home] writes nothing before its commit, so every
    user row and every task row, with its name, category and owner, is the
    same afterwards. *)
Theorem home_leaves_store :
  forall fk gen chk ord f c sl rnd s,
    let req := mkRequest GET route_home f c sl rnd in
    store_after fk gen chk ord req s = s /\
    Users (store_after fk gen chk ord req s) = Users s /\
    Tasks (store_after fk gen chk ord req s) = Tasks s /\
    pending (snd (serve fk gen chk ord req s)) = [].
Proof.
  intros fk gen chk ord f c sl rnd s req.
  assert (E : store_after fk gen chk ord req s = s /\
              pending (snd (serve fk gen chk ord req s)) = []).
  { unfold req. unfold_views. split_views; destruct s; auto. }
  destruct E as [E P]. rewrite E. auto.
Qed.

(** * Further properties of the module *)

(** ** The database URI *)

Lemma legacy_scheme_split uri :
  String.prefix "postgres://" uri = true ->
  exists rest, uri = String.append "postgres://" rest.
Proof.
  intros H.
  repeat (destruct uri as [|a uri]; [discriminate|];
          simpl in H;
          match type of H with
          | (if ?d then _ else _) = true =>
              destruct d as [E|E]; [subst a | discriminate]
          end).
  now exists uri.
Qed.

Lemma str_replace_first_at_head old new s :
  String.prefix old s = true ->
  str_replace_first old new s =
  String.append new (str_skip (String.length old) s).
Proof.
  intros H. destruct s; cbn [str_replace_first]; rewrite H; reflexivity.
Qed.

Lemma legacy_scheme_prefix rest :
  String.prefix "postgres://" (String.append "postgres://" rest) = true.
Proof. destruct rest; reflexivity. Qed.

(** X1. A [DATABASE_URL] with the scheme [postgres://] is handed to
    SQLAlchemy with the scheme [postgresql://] and the rest of the URL as it
    was, also when [postgres://] occurs again further on. *)
Theorem database_uri_scheme_rewritten :
  forall rest,
    SQLALCHEMY_DATABASE_URI (Some (String.append "postgres://" rest)) =
    String.append "postgresql://" rest.
Proof.
  intros rest. unfold SQLALCHEMY_DATABASE_URI.
  rewrite legacy_scheme_prefix.
  rewrite str_replace_first_at_head by apply legacy_scheme_prefix.
  reflexivity.
Qed.

(** X2. Whatever the environment, the configured URI does not start with
    [postgres://], and feeding a configured URI back as [DATABASE_URL]
    configures the same URI. *)
Theorem database_uri_never_legacy :
  forall env,
    String.prefix "postgres://" (SQLALCHEMY_DATABASE_URI env) = false /\
    SQLALCHEMY_DATABASE_URI (Some (SQLALCHEMY_DATABASE_URI env)) =
    SQLALCHEMY_DATABASE_URI env.
Proof.
  intros env.
  assert (P : String.prefix "postgres://" (SQLALCHEMY_DATABASE_URI env)
              = false).
  { destruct env as [uri|]; [|reflexivity].
    unfold SQLALCHEMY_DATABASE_URI.
    destruct (String.prefix "postgres://" uri) eqn:E; [|exact E].
    apply legacy_scheme_split in E as [rest ->].
    rewrite str_replace_first_at_head by apply legacy_scheme_prefix.
    reflexivity. }
  split; [exact P|].
  unfold SQLALCHEMY_DATABASE_URI at 1. now rewrite P.
Qed.

(** ** Invariants of the tables *)

(** X3. Key and unique-column integrity is an invariant of the application:
    when user ids, emails, task ids and task names are each without
    duplicates, they still are after any sequence of requests. *)
Theorem requests_keep_keys_unique :
  forall fk gen chk ord reqs s,
    wf_store s -> wf_store (run fk gen chk ord reqs s).
Proof.
  intros fk gen chk ord reqs s H.
  apply (run_invariant fk gen chk ord wf_store); [|exact H].
  intros req s1 s2 H1 C. eapply Change_wf; eassumption.
Qed.

Lemma requests_keep_keys_unique_witness :
  wf_store
    (toy_run [mkRequest POST route_register
                (register_form "carol@example.org" "s3cret" "Carol") None
                "MgCl" [];
              mkRequest POST route_add (add_form "Water plants") (Some 1)
                "" []]
             board).
Proof.
  exact (requests_keep_keys_unique
           owner_id_ForeignKey toy_generate_password_hash
           toy_check_password_hash engine_oldest_first _ board wf_board).
Defined.

Lemma valid_next_category c : valid_category (next_category c).
Proof.
  unfold valid_category, next_category.
  destruct (String.eqb c "To Do"); auto.
Qed.

Lemma Change_categories req s s' :
  Forall (fun t => valid_category (Task_category t)) (Tasks s) ->
  Change req s s' ->
  Forall (fun t => valid_category (Task_category t)) (Tasks s').
Proof.
  intros H [|e pw n k _ _ _ _|n i u k _ _ _ _ _ _|i t _ Ht|i t _ _ _];
    simpl; auto.
  - apply Forall_app. split; [exact H|].
    constructor; [|constructor]. simpl. left. reflexivity.
  - apply Forall_map. eapply Forall_impl; [|exact H].
    intros x Hx. unfold set_category.
    destruct (Task_id x =? i); [simpl; apply valid_next_category | exact Hx].
  - rewrite Forall_forall in *. intros x Hx.
    apply filter_In in Hx as [Hx _]. now apply H.
Qed.

(** X4. A task's category is always one of "To Do", "DOING" and "DONE": when
    that holds of every task, it holds after any sequence of requests. *)
Theorem requests_keep_categories_valid :
  forall fk gen chk ord reqs s,
    Forall (fun t => valid_category (Task_category t)) (Tasks s) ->
    Forall (fun t => valid_category (Task_category t))
           (Tasks (run fk gen chk ord reqs s)).
Proof.
  intros fk gen chk ord reqs s H.
  apply (run_invariant fk gen chk ord
           (fun s => Forall (fun t => valid_category (Task_category t))
                            (Tasks s))); [|exact H].
  intros req s1 s2 H1 C. eapply Change_categories; eassumption.
Qed.

Lemma board_categories_valid :
  Forall (fun t => valid_category (Task_category t)) (Tasks board).
Proof.
  unfold board. simpl.
  repeat (apply Forall_cons; [unfold valid_category; simpl; auto|]).
  constructor.
Qed.

Lemma requests_keep_categories_valid_witness :
  Forall (fun t => valid_category (Task_category t))
         (Tasks (toy_run [mkRequest GET (route_update 1) [] None "" [];
                          mkRequest GET (route_update 3) [] None "" []]
                         board)).
Proof.
  exact (requests_keep_categories_valid
           owner_id_ForeignKey toy_generate_password_hash
           toy_check_password_hash engine_oldest_first _ board
           board_categories_valid).
Defined.

Lemma Change_users req s s' :
  Change req s s' -> exists l, Users s' = Users s ++ l.
Proof.
  intros [|e pw n k _ _ _ _|n i u k _ _ _ _ _ _|i t _ Ht|i t _ _ _]; simpl;
    try (exists []; now rewrite app_nil_r).
  eexists. reflexivity.
Qed.

(** X5. Accounts are append-only: after any sequence of requests the user
    table starts with the rows it had, unchanged and in the same order. No
    request deletes a user or alters an email, a name or a password hash. *)
Theorem requests_only_append_users :
  forall fk gen chk ord reqs s,
    exists l, Users (run fk gen chk ord reqs s) = Users s ++ l.
Proof.
  intros fk gen chk ord reqs.
  induction reqs as [|req reqs IH]; intros s; simpl.
  - exists []. now rewrite app_nil_r.
  - destruct (Change_users _ _ _ (store_after_change fk gen chk ord req s))
      as [l1 E1].
    destruct (IH (store_after fk gen chk ord req s)) as [l2 E2].
    exists (l1 ++ l2). now rewrite E2, E1, app_assoc.
Qed.

Lemma Change_owners req s s' :
  owners_exist s -> Change req s s' -> owners_exist s'.
Proof.
  unfold owners_exist.
  intros H [|e pw n k _ _ _ _|n i u k _ _ _ Hu _ _|i t _ Ht|i t _ _ _];
    simpl; auto.
  - intros x Hx. destruct (H x Hx) as [u [Hu E]].
    exists u. split; [apply in_or_app; now left | exact E].
  - intros x Hx. apply in_app_or in Hx as [Hx|[<-|[]]]; [now apply H|].
    exists u. split; [|reflexivity].
    unfold User_get in Hu. now apply find_some in Hu.
  - intros x Hx. apply in_map_iff in Hx as [y [<- Hy]].
    destruct (H y Hy) as [u [Hu E]]. exists u. split; [exact Hu|].
    unfold set_category. now destruct (Task_id y =? i).
  - intros x Hx. apply filter_In in Hx as [Hx _]. now apply H.
Qed.

(** X6. Referential integrity without a checked foreign key: when every
    task's [owner_id] is the id of a user row, that is still so after any
    sequence of requests, because [add_task] takes the owner from a user row
    it has just loaded and no request removes a user. *)
Theorem requests_keep_owners :
  forall fk gen chk ord reqs s,
    owners_exist s -> owners_exist (run fk gen chk ord reqs s).
Proof.
  intros fk gen chk ord reqs s H.
  apply (run_invariant fk gen chk ord owners_exist); [|exact H].
  intros req s1 s2 H1 C. eapply Change_owners; eassumption.
Qed.

Lemma board_owners_exist : owners_exist board.
Proof.
  intros t [<-|[<-|[<-|[]]]]; [exists bob | exists alice | exists alice];
    simpl; auto.
Qed.

Lemma requests_keep_owners_witness :
  owners_exist
    (toy_run [mkRequest POST route_register
                (register_form "carol@example.org" "s3cret" "Carol") None
                "MgCl" [];
              mkRequest POST route_add (add_form "Water plants") (Some 1)
                "" []]
             board).
Proof.
  exact (requests_keep_owners
           owner_id_ForeignKey toy_generate_password_hash
           toy_check_password_hash engine_oldest_first _ board
           board_owners_exist).
Defined.

(** ** Adding and updating a task *)

(** X8. On the module as declared a POST to [/add] never stores a task and
    always ends in an exception: the missing form field when the form has no
    [task], the attribute error of the anonymous user when the session names
    no user, and [NoForeignKeysError], raised when [load_user] builds
    [User.query], for every session that names one. *)
Theorem add_task_stores_nothing :
  forall gen chk ord f c sl rnd s,
    let req := mkRequest POST route_add f c sl rnd in
    store_after owner_id_ForeignKey gen chk ord req s = s /\
    fst (serve owner_id_ForeignKey gen chk ord req s) =
      match find (fun kv => String.eqb (fst kv) "task") f, c with
      | None, _ => Raise (BadRequestKeyError "task")
      | Some _, None => Raise (AttributeError "AnonymousUserMixin" "id")
      | Some _, Some _ => Raise NoForeignKeysError
      end.
Proof.
  intros gen chk ord f c sl rnd s req.
  split; [apply declared_store_after|].
  unfold req. unfold_views.
  destruct (find _ f); [|reflexivity].
  destruct c; reflexivity.
Qed.

(** X12. Updating a task touches its category only: the user table, the
    number and order of the tasks, their ids, names and owners are as before,
    and every task with another id is found unchanged. The session cookie
    plays no part. *)
Theorem update_task_changes_category_only :
  forall fk gen chk ord m f c sl rnd i s t,
    Task_get i s = Some t ->
    let s1 := store_after fk gen chk ord
                (mkRequest m (route_update i) f c sl rnd) s in
    Users s1 = Users s /\
    map Task_id (Tasks s1) = map Task_id (Tasks s) /\
    map Task_name (Tasks s1) = map Task_name (Tasks s) /\
    map Task_owner_id (Tasks s1) = map Task_owner_id (Tasks s) /\
    (forall j, j <> i -> Task_get j s1 = Task_get j s).
Proof.
  intros fk gen chk ord m f c sl rnd i s t H s1.
  pose proof (store_after_change fk gen chk ord
                (mkRequest m (route_update i) f c sl rnd) s) as C.
  fold s1 in C.
  destruct C as [|e pw n k Hr _ _ _|n j u k Hr _ _ _ _ _|j t0 Hr Ht0|j t0 Hr _ _];
    try (simpl in Hr; discriminate Hr).
  - repeat split.
  - simpl in Hr. injection Hr as <-. simpl. repeat split.
    + apply map_id_set_category.
    + apply map_name_set_category.
    + rewrite map_map. apply map_ext. intros x. unfold set_category.
      now destruct (Task_id x =? i).
    + intros j Hj. unfold Task_get. simpl. rewrite find_id_set_category.
      destruct (find _ (Tasks s)) as [x|] eqn:E; [|reflexivity].
      simpl. f_equal. apply set_category_other.
      apply find_some in E as [_ E]. apply Z.eqb_eq in E. lia.
Qed.

Lemma update_task_changes_category_only_witness :
  map Task_name
    (Tasks (toy_store_after (mkRequest GET (route_update 1) [] None "" [])
                            board))
  = ["Buy milk"; "Walk dog"; "Pay rent"].
Proof.
  exact (proj1 (proj2 (proj2
           (update_task_changes_category_only
              owner_id_ForeignKey toy_generate_password_hash
              toy_check_password_hash engine_oldest_first
              GET [] None "" [] 1 board milk eq_refl)))).
Defined.

(** ** Sessions *)

(** X13. On the module as declared nobody is logged out: for a session that
    names a user, GET [/logout] ends in [NoForeignKeysError], raised when
    [logout_user] resolves the current user, and the session keeps its user;
    only a session that names none gets the redirect. The database is
    untouched. *)
Theorem logout_keeps_session :
  forall gen chk ord f c sl rnd s,
    serve owner_id_ForeignKey gen chk ord
      (mkRequest GET route_logout f c sl rnd) s =
    match c with
    | Some _ => (Raise NoForeignKeysError, mkWorld s [] c [])
    | None => (Ok (redirect "home"), mkWorld s [] None [])
    end.
Proof.
  intros gen chk ord f c sl rnd s. destruct c; reflexivity.
Qed.

(** X16. On the module as declared nobody is logged in: no request to
    [/login], with either method and any form, is answered with the redirect
    to the home page, and it leaves the session's user and the database as
    they were. *)
Theorem login_never_succeeds :
  forall gen chk ord m f c sl rnd s,
    let req := mkRequest m route_login f c sl rnd in
    fst (serve owner_id_ForeignKey gen chk ord req s)
      <> Ok (redirect "home") /\
    session_user (snd (serve owner_id_ForeignKey gen chk ord req s)) = c /\
    db (snd (serve owner_id_ForeignKey gen chk ord req s)) = s.
Proof.
  intros gen chk ord m f c sl rnd s req. unfold req.
  destruct m; unfold_views; split_views;
    repeat split; try discriminate; destruct s; reflexivity.
Qed.

(** X17. Only two kinds of request can change the database on GET: a GET
    request to any route other than [/update/<id>] and [/delete/<id>] leaves
    every row as it was. *)
Theorem get_is_safe_off_update_and_delete :
  forall fk gen chk ord req s,
    method req = GET ->
    (forall i, route req <> route_update i) ->
    (forall i, route req <> route_delete i) ->
    store_after fk gen chk ord req s = s.
Proof.
  intros fk gen chk ord req s Hm Hu Hd.
  destruct (store_after_change fk gen chk ord req s)
    as [|e pw n k _ Hp _ _|n i u k _ Hp _ _ _ _|i t Hr _|i t Hr _ _].
  - reflexivity.
  - congruence.
  - congruence.
  - now apply Hu in Hr.
  - now apply Hd in Hr.
Qed.

Lemma get_is_safe_off_update_and_delete_witness :
  toy_store_after
    (mkRequest GET route_register
       (register_form "carol@example.org" "s3cret" "Carol") None "MgCl" [])
    board = board.
Proof.
  apply (get_is_safe_off_update_and_delete
           owner_id_ForeignKey toy_generate_password_hash
           toy_check_password_hash engine_oldest_first);
    [reflexivity | discriminate | discriminate].
Defined.

Lemma raise_keeps_store fk gen chk ord req s :
  match fst (serve fk gen chk ord req s) with
  | Raise _ => store_after fk gen chk ord req s = s
  | Ok _ => True
  end.
Proof.
  destruct req as [m r f c sl rnd].
  destruct r, m; unfold_views; split_views;
    first [exact I | reflexivity | destruct s; reflexivity].
Qed.

(** X18. A request that ends in an exception leaves the database exactly as
    it was, whatever the route, the method, the form and the cookie. *)
Theorem exception_leaves_store :
  forall fk gen chk ord req s e,
    fst (serve fk gen chk ord req s) = Raise e ->
    store_after fk gen chk ord req s = s.
Proof.
  intros fk gen chk ord req s e H.
  pose proof (raise_keeps_store fk gen chk ord req s) as G.
  now rewrite H in G.
Qed.

Lemma exception_leaves_store_witness :
  toy_store_after
    (mkRequest POST route_add (add_form "Buy milk") (Some 1) "" []) board
  = board.
Proof.
  exact (exception_leaves_store
           owner_id_ForeignKey toy_generate_password_hash
           toy_check_password_hash engine_oldest_first
           (mkRequest POST route_add (add_form "Buy milk") (Some 1) "" [])
           board NoForeignKeysError eq_refl).
Defined.

(** X20. The task routes never log anyone in or out and never flash: after
    a request to [/], [/add], [/update/<id>] or [/delete/<id>] the session's
    user is the one the cookie named and no message is queued. *)
Theorem task_routes_leave_session :
  forall fk gen chk ord req s,
    route req <> route_register ->
    route req <> route_login ->
    route req <> route_logout ->
    session_user (snd (serve fk gen chk ord req s)) = cookie req /\
    flashes (snd (serve fk gen chk ord req s)) = [].
Proof.
  intros fk gen chk ord [m r f c sl rnd] s Hr Hl Ho. simpl in *.
  destruct r; try congruence;
    destruct m; unfold_views; split_views; auto.
Qed.

Lemma task_routes_leave_session_witness :
  session_user
    (snd (toy_serve
            (mkRequest POST route_add (add_form "Water plants") (Some 2)
                       "" [])
            board)) = Some 2.
Proof.
  refine (proj1 (task_routes_leave_session
            owner_id_ForeignKey toy_generate_password_hash
            toy_check_password_hash engine_oldest_first
            (mkRequest POST route_add (add_form "Water plants") (Some 2)
                       "" [])
            board _ _ _)); discriminate.
Defined.

(** X21. A registration form that lacks the email, the password or the
    name creates no account and logs nobody in: the database and the
    session's user are as before. *)
Theorem register_incomplete_form :
  forall fk gen chk ord f c sl rnd s key,
    key = "register-email" \/ key = "register-password" \/
    key = "register-name" ->
    find (fun kv => String.eqb (fst kv) key) f = None ->
    let req := mkRequest POST route_register f c sl rnd in
    store_after fk gen chk ord req s = s /\
    session_user (snd (serve fk gen chk ord req s)) = c.
Proof.
  intros fk gen chk ord f c sl rnd s key Hk Hf req. unfold req.
  destruct Hk as [-> | [-> | ->]]; unfold_views; rewrite ?Hf; simpl;
    split_views; simpl; try rewrite Hf in *; try discriminate; auto;
    destruct s; auto.
Qed.

Lemma register_incomplete_form_witness :
  toy_store_after
    (mkRequest POST route_register
       [("register-email", "carol@example.org");
        ("register-password", "s3cret")] None "MgCl" [])
    board = board.
Proof.
  refine (proj1 (register_incomplete_form
            owner_id_ForeignKey toy_generate_password_hash
            toy_check_password_hash engine_oldest_first
            _ None "MgCl" [] board "register-name" _ _));
    [tauto | reflexivity].
Defined.

(** X22. Which table a route can write. [/], [/login] and [/logout] write
    nothing, with either method; [/register] leaves the task table alone; the
    task routes leave the user table alone. *)
Theorem tables_written_by_route :
  forall fk gen chk ord req s,
    match route req with
    | route_home | route_login | route_logout =>
        store_after fk gen chk ord req s = s
    | route_register =>
        Tasks (store_after fk gen chk ord req s) = Tasks s
    | route_add | route_update _ | route_delete _ =>
        Users (store_after fk gen chk ord req s) = Users s
    end.
Proof.
  intros fk gen chk ord req s.
  destruct (store_after_change fk gen chk ord req s)
    as [|e pw n k Hr _ _ _|n i u k Hr _ _ _ _ _|i t Hr _|i t Hr _ _];
    try rewrite Hr; simpl; try reflexivity.
  destruct (route req); reflexivity.
Qed.

(** ** Printing *)

Lemma append_close_inj a b :
  String.append a ">" = String.append b ">" -> a = b.
Proof.
  revert b. induction a as [|x a IH]; intros [|y b] H; simpl in H.
  - reflexivity.
  - injection H as _ H. destruct b; discriminate H.
  - injection H as _ H. destruct a; discriminate H.
  - injection H as -> H. f_equal. now apply IH.
Qed.

Lemma NoDup_map_eq {A B} (f : A -> B) l x y :
  NoDup (map f l) -> In x l -> In y l -> f x = f y -> x = y.
Proof.
  induction l as [|z l IH]; simpl; [tauto|].
  intros H Hx Hy E. inversion H as [|? ? Hz Hl]; subst.
  destruct Hx as [->|Hx], Hy as [->|Hy].
  - reflexivity.
  - exfalso. apply Hz. rewrite E. now apply in_map.
  - exfalso. apply Hz. rewrite <- E. now apply in_map.
  - now apply IH.
Qed.

(** X23. Printing identifies a task: in a database whose task names are
    unique, two task rows that print the same with [Task.__repr__] are the
    same row. *)
Theorem Task_repr_identifies :
  forall s t1 t2,
    wf_store s ->
    In t1 (Tasks s) -> In t2 (Tasks s) ->
    Task_repr t1 = Task_repr t2 ->
    t1 = t2.
Proof.
  intros s t1 t2 (_ & _ & _ & Hn) H1 H2 E.
  apply (NoDup_map_eq Task_name (Tasks s)); auto.
  unfold Task_repr in E. simpl in E.
  repeat injection E as E.
  now apply append_close_inj.
Qed.

Lemma Task_repr_identifies_witness :
  Task_repr dog = "<Task Walk dog>" /\
  (Task_repr dog = Task_repr dog -> dog = dog).
Proof.
  split; [reflexivity|].
  apply (Task_repr_identifies board dog dog wf_board); simpl; tauto.
Defined.

(** ** The module as declared writes nothing *)

(** X24. On the module as declared no sequence of requests, to any routes,
    with any forms and cookies, changes a row of either table: every view
    that would write raises at the mapper configuration, at the form or at
    the routing before its commit. *)
Theorem declared_module_never_writes :
  forall gen chk ord reqs s,
    run owner_id_ForeignKey gen chk ord reqs s = s.
Proof.
  intros gen chk ord reqs.
  induction reqs as [|req reqs IH]; intros s; simpl; [reflexivity|].
  rewrite declared_store_after. apply IH.
Qed.
